(** * A calculator core: arithmetic primitives, calculation variants, factory

    Shallow embedding of [app/operation/__init__.py] and
    [app/calculation/__init__.py].

    - Operands are Python floats, that is IEEE 754 binary64 numbers: the
      kernel's primitive [float], with its operations.
    - Strings are sequences of code points below 256.
    - A Python exception is a value of [exn]; a call either returns or raises,
      and what it did to the state before raising stays done.
    - [CalculationFactory._calculations] is a dict: an association list in
      insertion order, since the order shows in an error message. *)

From Stdlib Require Import String Ascii List Bool ZArith Lia Floats DecimalString.
Import ListNotations.

Local Open Scope string_scope.

(** ** Exceptions and results *)

Inductive exn_class : Type :=
  | ValueError
  | ZeroDivisionError
  | TypeError
  | OverflowError.

Record exn : Type := Exn { exn_type : exn_class; exn_msg : string }.

Inductive Result (A : Type) : Type :=
  | Ok (x : A)
  | Raise (e : exn).

Arguments Ok {A} x.
Arguments Raise {A} e.

Definition Result_bind {A B : Type} (r : Result A) (k : A -> Result B) : Result B :=
  match r with
  | Ok x => k x
  | Raise e => Raise e
  end.

Definition Result_map {A B : Type} (f : A -> B) (r : Result A) : Result B :=
  Result_bind r (fun x => Ok (f x)).

(** The value a call returned, forgetting which exception it raised. *)
Definition returned {A : Type} (r : Result A) : option A :=
  match r with
  | Ok x => Some x
  | Raise _ => None
  end.

(** ** Strings *)

Module PyStr.

(** [str.lower] on one code point below 256: A-Z and the Latin-1 capitals
    (0xC0-0xDE, the multiplication sign 0xD7 apart) move up by 32. *)
Definition lower_char (c : ascii) : ascii :=
  let n := nat_of_ascii c in
  if (Nat.leb 65 n && Nat.leb n 90)
     || (Nat.leb 192 n && Nat.leb n 222 && negb (Nat.eqb n 215))
  then ascii_of_nat (n + 32)
  else c.

Fixpoint lower (s : string) : string :=
  match s with
  | EmptyString => EmptyString
  | String c s' => String (lower_char c) (lower s')
  end.

(** [sep.join(parts)] *)
Fixpoint join (sep : string) (parts : list string) : string :=
  match parts with
  | [] => ""
  | [p] => p
  | p :: rest => p ++ sep ++ join sep rest
  end.

(** [s.replace(old, new)]: the occurrences of [old] are taken from the left
    and do not overlap. [skip] counts the characters of an occurrence that
    are still to be dropped. *)
Fixpoint replace_from (old new : string) (skip : nat) (s : string) : string :=
  match s with
  | EmptyString => EmptyString
  | String c s' =>
      match skip with
      | S k => replace_from old new k s'
      | O =>
          if prefix old s
          then new ++ replace_from old new (String.length old - 1) s'
          else String c (replace_from old new 0 s')
      end
  end.

(** With an empty [old], Python puts [new] before every character and at
    the end. *)
Fixpoint intersperse (new s : string) : string :=
  match s with
  | EmptyString => new
  | String c s' => new ++ String c (intersperse new s')
  end.

Definition replace (s old new : string) : string :=
  match old with
  | EmptyString => intersperse new s
  | String _ _ => replace_from old new 0 s
  end.

(** [needle in s] *)
Definition occurs_in (needle s : string) : Prop :=
  exists pre post, s = pre ++ needle ++ post.

End PyStr.

(** ** Floats *)

Module PyFloat.

Local Open Scope float_scope.

(** [x == 0]: true of both zeros, false of nan. *)
Definition eq_zero (x : float) : bool := (x =? 0).

(** [a / b] on floats: the interpreter itself refuses a zero divisor. *)
Definition truediv (a b : float) : Result float :=
  if (b =? 0)
  then Raise (Exn ZeroDivisionError "float division by zero")
  else Ok (a / b).

(** Whether a float is an odd integer (the interpreter's
    [DOUBLE_IS_ODD_INTEGER]), read off the mantissa and exponent. *)
Definition is_odd_integer (x : float) : bool :=
  match Prim2SF x with
  | S754_finite _ m e =>
      match e with
      | Z0 => Z.odd (Zpos m)
      | Zpos _ => false
      | Zneg k =>
          let d := Z.pow 2 (Zpos k) in
          Z.eqb (Z.modulo (Zpos m) d) 0 && Z.odd (Z.div (Zpos m) d)
      end
  | _ => false
  end.

(** The integer a float equals, when it equals one. *)
Definition integral_value (x : float) : option Z :=
  match Prim2SF x with
  | S754_zero _ => Some 0%Z
  | S754_finite _ m e =>
      match e with
      | Z0 => Some (Zpos m)
      | Zpos k => Some (Zpos m * Z.pow 2 (Zpos k))%Z
      | Zneg k =>
          let d := Z.pow 2 (Zpos k) in
          if Z.eqb (Z.modulo (Zpos m) d) 0 then Some (Z.div (Zpos m) d) else None
      end
  | _ => None
  end.

Definition sign_bit (x : float) : bool :=
  match Prim2SF x with
  | S754_zero s | S754_infinity s | S754_finite s _ _ => s
  | S754_nan => false
  end.

End PyFloat.

(** ** Values and the interpreter's part *)

(** What an arithmetic expression on floats evaluates to: a float, or a
    complex number (a negative base under a fractional exponent). *)
Inductive pyval : Type :=
  | VFloat (x : float)
  | VComplex (re im : float).

(** What the embedding takes from the interpreter as it is:
    - [pow_finite]: [v ** w] for finite [v] and [w], both nonzero (negative
      bases, base one, the C library's [pow] and its range check);
    - [repr_short]: the shortest decimal that reads back as the same float,
      for the floats that are no integer below 10^16;
    - [complex_str]: [str] of a complex number. *)
Class Interpreter : Type := {
  pow_finite : float -> float -> Result pyval;
  repr_short : float -> string;
  complex_str : float -> float -> string
}.

Module PyFormat.

Definition digits (n : Z) : string :=
  NilZero.string_of_uint (N.to_uint (Z.to_N n)).

Section WithInterpreter.
Context {I : Interpreter}.

(** [str(x)], which is what [f"{x}"] puts in: an integral float below
    10^16 is written as its integer followed by [.0]. *)
Definition float_str (x : float) : string :=
  match Prim2SF x with
  | S754_nan => "nan"
  | S754_infinity s => if s then "-inf" else "inf"
  | _ =>
      match PyFloat.integral_value x with
      | Some n =>
          if (n <? 10 ^ 16)%Z
          then (if PyFloat.sign_bit x then "-" else "") ++ digits n ++ ".0"
          else repr_short x
      | None => repr_short x
      end
  end.

Definition value_str (v : pyval) : string :=
  match v with
  | VFloat x => float_str x
  | VComplex re im => complex_str re im
  end.

End WithInterpreter.

End PyFormat.

Module PyPow.

Local Open Scope float_scope.

Definition copysign_zero (v : float) : float :=
  if PyFloat.sign_bit v then neg_zero else zero.

Section WithInterpreter.
Context {I : Interpreter}.

(** [v ** w] on floats: the interpreter settles the special cases itself,
    in this order, before it calls the C library. *)
Definition float_pow (v w : float) : Result pyval :=
  if (w =? 0) then Ok (VFloat 1)
  else if is_nan v then Ok (VFloat v)
  else if is_nan w then Ok (VFloat (if (v =? 1) then 1 else w))
  else if is_infinity w then
    let av := abs v in
    if (av =? 1) then Ok (VFloat 1)
    else if Bool.eqb (0 <? w) (1 <? av) then Ok (VFloat (abs w))
    else Ok (VFloat 0)
  else if is_infinity v then
    let odd := PyFloat.is_odd_integer w in
    if (0 <? w) then Ok (VFloat (if odd then v else abs v))
    else Ok (VFloat (if odd then copysign_zero v else 0))
  else if (v =? 0) then
    if (w <? 0)
    then Raise (Exn ZeroDivisionError "0.0 cannot be raised to a negative power")
    else Ok (VFloat (if PyFloat.is_odd_integer w then v else 0))
  else pow_finite v w.

End WithInterpreter.

End PyPow.

(** ** app/operation: class Operation *)

Module Operation.

Local Open Scope float_scope.

Definition addition (a b : float) : float := a + b.

Definition subtraction (a b : float) : float := a - b.

Definition multiplication (a b : float) : float := a * b.

Definition division (a b : float) : Result float :=
  if PyFloat.eq_zero b
  then Raise (Exn ValueError "Division by zero is not allowed.")
  else PyFloat.truediv a b.

Definition power {I : Interpreter} (a b : float) : Result pyval :=
  PyPow.float_pow a b.

End Operation.

(** ** State: calls that read and write, and may raise *)

Definition Stateful (S A : Type) : Type := S -> Result A * S.

Definition ret {S A : Type} (x : A) : Stateful S A := fun s => (Ok x, s).

Definition raise {S A : Type} (e : exn) : Stateful S A := fun s => (Raise e, s).

Definition bind {S A B : Type} (c : Stateful S A) (k : A -> Stateful S B) : Stateful S B :=
  fun s =>
    match c s with
    | (Ok x, s') => k x s'
    | (Raise e, s') => (Raise e, s')
    end.

Definition get {S : Type} : Stateful S S := fun s => (Ok s, s).

Definition put {S : Type} (s : S) : Stateful S unit := fun _ => (Ok tt, s).

(** A call of a function that has no state of its own. *)
Definition call {S A : Type} (r : Result A) : Stateful S A := fun s => (r, s).

Declare Scope stateful_scope.
Delimit Scope stateful_scope with stateful.
Notation "x <- c ;; k" := (bind c (fun x => k))
  (at level 61, c at next level, right associativity) : stateful_scope.
Notation "c ;; k" := (bind c (fun _ => k))
  (at level 61, right associativity) : stateful_scope.

Local Open Scope stateful_scope.

(** ** Python dicts, in insertion order *)

Module PyDict.

Section Dict.
Context {V : Type}.

Definition dict : Type := list (string * V).

(** [d.get(k)] *)
Fixpoint dict_get (d : dict) (k : string) : option V :=
  match d with
  | [] => None
  | (k', v) :: d' => if String.eqb k' k then Some v else dict_get d' k
  end.

(** [k in d] *)
Definition dict_contains (d : dict) (k : string) : bool :=
  match dict_get d k with
  | Some _ => true
  | None => false
  end.

(** [d[k] = v]: a key that is there keeps its place, a new one goes last. *)
Fixpoint dict_set (d : dict) (k : string) (v : V) : dict :=
  match d with
  | [] => [(k, v)]
  | (k', v') :: d' =>
      if String.eqb k' k then (k, v) :: d' else (k', v') :: dict_set d' k v
  end.

(** [d.keys()] *)
Definition dict_keys (d : dict) : list string := map fst d.

End Dict.

Arguments dict V : clear implicits.

End PyDict.

Import PyDict.

(** ** app/calculation: class Calculation and its subclasses *)

(** A class object. The five classes of the module are named; any other
    subclass of [Calculation] (a test defines one) is known by its
    [__name__]. *)
Inductive CalcClass : Type :=
  | AddCalculation
  | SubtractCalculation
  | MultiplyCalculation
  | DivideCalculation
  | PowerCalculation
  | UserCalculation (name : string).

Definition class_name (k : CalcClass) : string :=
  match k with
  | AddCalculation => "AddCalculation"
  | SubtractCalculation => "SubtractCalculation"
  | MultiplyCalculation => "MultiplyCalculation"
  | DivideCalculation => "DivideCalculation"
  | PowerCalculation => "PowerCalculation"
  | UserCalculation name => name
  end.

(** The classes whose [execute] is in the module. *)
Definition defined_here (k : CalcClass) : bool :=
  match k with
  | UserCalculation _ => false
  | _ => true
  end.

(** An instance: its class and the two attributes [__init__] sets. *)
Record Calculation : Type := new_Calculation {
  klass : CalcClass;
  a : float;
  b : float
}.

Definition Registry : Type := dict CalcClass.

(** What a method can reach: its [self], and the factory's class attribute
    [_calculations]. *)
Record Frame : Type := new_Frame {
  self : Calculation;
  calculations : Registry
}.

Definition Method (A : Type) : Type := Stateful Frame A.

(** The [execute] of the subclasses defined elsewhere: any method at all. *)
Class UserClasses : Type := {
  user_execute : string -> Method pyval
}.

Definition get_self : Method Calculation :=
  fun fr => (Ok (self fr), fr).

Section Methods.
Context {I : Interpreter} {U : UserClasses}.

Definition AddCalculation_execute : Method pyval :=
  self <- get_self ;;
  ret (VFloat (Operation.addition (a self) (b self))).

Definition SubtractCalculation_execute : Method pyval :=
  self <- get_self ;;
  ret (VFloat (Operation.subtraction (a self) (b self))).

Definition MultiplyCalculation_execute : Method pyval :=
  self <- get_self ;;
  ret (VFloat (Operation.multiplication (a self) (b self))).

(** [DivideCalculation.execute], with the primitive it delegates to left
    open: [Operation.division] is looked up when the call is made. *)
Definition DivideCalculation_execute_via
    (division : float -> float -> Result float) : Method pyval :=
  self <- get_self ;;
  if PyFloat.eq_zero (b self)
  then raise (Exn ZeroDivisionError "Cannot divide by zero.")
  else
    q <- call (division (a self) (b self)) ;;
    ret (VFloat q).

Definition DivideCalculation_execute : Method pyval :=
  DivideCalculation_execute_via Operation.division.

Definition PowerCalculation_execute : Method pyval :=
  self <- get_self ;;
  call (Operation.power (a self) (b self)).

(** [self.execute()]: the method of the class of [self]. *)
Definition execute : Method pyval :=
  self <- get_self ;;
  match klass self with
  | AddCalculation => AddCalculation_execute
  | SubtractCalculation => SubtractCalculation_execute
  | MultiplyCalculation => MultiplyCalculation_execute
  | DivideCalculation => DivideCalculation_execute
  | PowerCalculation => PowerCalculation_execute
  | UserCalculation name => user_execute name
  end.

(** [Calculation.__str__] *)
Definition Calculation_str : Method string :=
  result <- execute ;;
  self <- get_self ;;
  let operation_name := PyStr.replace (class_name (klass self)) "Calculation" "" in
  ret (class_name (klass self) ++ ": " ++ PyFormat.float_str (a self) ++ " "
       ++ operation_name ++ " " ++ PyFormat.float_str (b self) ++ " = "
       ++ PyFormat.value_str result).

(** [Calculation.__repr__] *)
Definition Calculation_repr : Method string :=
  self <- get_self ;;
  ret (class_name (klass self) ++ "(a=" ++ PyFormat.float_str (a self)
       ++ ", b=" ++ PyFormat.float_str (b self) ++ ")").

End Methods.

(** ** app/calculation: class CalculationFactory *)

Module CalculationFactory.

(** [register_calculation(calculation_type)(subclass)]: the decorator,
    applied. *)
Definition register_calculation (calculation_type : string) (subclass : CalcClass)
  : Stateful Registry CalcClass :=
  let calculation_type_lower := PyStr.lower calculation_type in
  _calculations <- get ;;
  if dict_contains _calculations calculation_type_lower
  then raise (Exn ValueError
                ("Calculation type '" ++ calculation_type ++ "' is already registered."))
  else
    put (dict_set _calculations calculation_type_lower subclass) ;;
    ret subclass.

Definition create_calculation (calculation_type : string) (a b : float)
  : Stateful Registry Calculation :=
  let calculation_type_lower := PyStr.lower calculation_type in
  _calculations <- get ;;
  match dict_get _calculations calculation_type_lower with
  | None =>
      let available_types := PyStr.join ", " (dict_keys _calculations) in
      raise (Exn ValueError
               ("Unsupported calculation type: '" ++ calculation_type
                ++ "'. Available types: " ++ available_types))
  | Some calculation_class => ret (new_Calculation calculation_class a b)
  end.

(** The five decorators, as they run when the module is imported. *)
Definition module_body : Stateful Registry unit :=
  register_calculation "add" AddCalculation ;;
  register_calculation "subtract" SubtractCalculation ;;
  register_calculation "multiply" MultiplyCalculation ;;
  register_calculation "divide" DivideCalculation ;;
  register_calculation "power" PowerCalculation ;;
  ret tt.

(** [_calculations] once the module is imported. *)
Definition imported : Registry := snd (module_body []).

End CalculationFactory.

(** A registry where every key is there once, as a dict has it. *)
Definition well_formed (r : Registry) : Prop := NoDup (dict_keys r).

(** Every key is as [str.lower] leaves it. *)
Definition keys_lowercase (r : Registry) : Prop :=
  Forall (fun key => PyStr.lower key = key) (dict_keys r).

(** [needle in s], decided. *)
Fixpoint str_contains (needle s : string) : bool :=
  prefix needle s
  || match s with
     | EmptyString => false
     | String _ s' => str_contains needle s'
     end.

(** ** Instances to run examples on *)

(** An interpreter that gives up where the C library would be called, and
    that writes one float that is no integer. *)
Definition example_interpreter : Interpreter := {|
  pow_finite := fun _ _ => Raise (Exn OverflowError "(34, 'Numerical result out of range')");
  repr_short := fun x => if (x =? -2.5)%float then "-2.5" else "<float>";
  complex_str := fun _ _ => "<complex>"
|}.

(** Two subclasses from outside the module: [DummyCalculation], whose
    [execute] returns 0.0, and one whose [execute] overwrites an operand. *)
Definition example_user_classes : UserClasses := {|
  user_execute := fun name =>
    if String.eqb name "DummyCalculation" then ret (VFloat 0)
    else
      fr <- get ;;
      put (new_Frame (new_Calculation (klass (self fr)) 0 (b (self fr))) (calculations fr)) ;;
      ret (VFloat (a (self fr)))
|}.

(** ** Small runs *)

Example imported_registry :
  CalculationFactory.module_body [] =
    (Ok tt, [("add", AddCalculation); ("subtract", SubtractCalculation);
             ("multiply", MultiplyCalculation); ("divide", DivideCalculation);
             ("power", PowerCalculation)]).
Proof. reflexivity. Qed.

Example lower_mixed : PyStr.lower "DiViDe" = "divide".
Proof. reflexivity. Qed.

Example replace_label :
  PyStr.replace "CalculationOfCalculations" "Calculation" "" = "Ofs".
Proof. reflexivity. Qed.

Example join_keys : PyStr.join ", " ["add"; "subtract"] = "add, subtract".
Proof. reflexivity. Qed.

Example division_overflows : Operation.division 0x1p+1023 0x1p-1000 = Ok infinity.
Proof. reflexivity. Qed.

Example division_underflows : Operation.division 0x1p-1000 0x1p+1000 = Ok 0%float.
Proof. reflexivity. Qed.

Example float_str_runs :
  map (PyFormat.float_str (I := example_interpreter))
    [10; neg_zero; 1e15; -2.5; infinity; nan]%float
  = ["10.0"; "-0.0"; "1000000000000000.0"; "-2.5"; "inf"; "nan"].
Proof. vm_compute. reflexivity. Qed.

Example odd_integers :
  map PyFloat.is_odd_integer [3; 4; 0.5; 0; infinity; 9007199254740992; -7]%float
  = [true; false; false; false; false; false; true].
Proof. vm_compute. reflexivity. Qed.

(** ** Float comparisons, through their specification *)

Module FloatFacts.

Local Open Scope float_scope.

Lemma Prim2SF_zero : Prim2SF 0 = S754_zero false.
Proof. reflexivity. Qed.

Lemma SFeqb_refl (x : spec_float) : x <> S754_nan -> SFeqb x x = true.
Proof.
  destruct x as [s | s | | s m e]; intros Hx; try congruence.
  - reflexivity.
  - destruct s; reflexivity.
  - unfold SFeqb, SFcompare.
    rewrite Z.compare_refl.
    change (PosDef.Pos.compare_cont Eq m m) with (Pos.compare m m).
    rewrite Pos.compare_refl. destruct s; reflexivity.
Qed.

(** A float that equals zero is one of the two zeros. *)
Lemma eq_zero_inv (x : float) :
  (x =? 0) = true -> exists s, Prim2SF x = S754_zero s.
Proof.
  rewrite eqb_spec, Prim2SF_zero.
  destruct (Prim2SF x) as [s | s | | s m e]; cbn; intros H.
  - exists s. reflexivity.
  - destruct s; discriminate.
  - discriminate.
  - destruct s; discriminate.
Qed.

(** A float above zero is plus infinity or a positive finite number. *)
Lemma gt_zero_inv (y : float) :
  (0 <? y) = true ->
  Prim2SF y = S754_infinity false \/ exists m e, Prim2SF y = S754_finite false m e.
Proof.
  rewrite ltb_spec, Prim2SF_zero.
  destruct (Prim2SF y) as [s | s | | s m e]; cbn; intros H; try discriminate.
  - destruct s; [discriminate | left; reflexivity].
  - destruct s; [discriminate | right; exists m, e; reflexivity].
Qed.

Lemma is_nan_spec (x : float) :
  is_nan x = negb (SFeqb (Prim2SF x) (Prim2SF x)).
Proof. unfold is_nan. rewrite eqb_spec. reflexivity. Qed.

Lemma is_infinity_spec (x : float) :
  is_infinity x = SFeqb (SFabs (Prim2SF x)) (S754_infinity false).
Proof. unfold is_infinity. rewrite eqb_spec, abs_spec. reflexivity. Qed.

End FloatFacts.

(** ** The arithmetic primitives *)

Section OperationFacts.

Local Open Scope float_scope.

Lemma truediv_nonzero (a b : float) :
  PyFloat.eq_zero b = false -> PyFloat.truediv a b = Ok (a / b).
Proof.
  unfold PyFloat.eq_zero, PyFloat.truediv. intros ->. reflexivity.
Qed.

Lemma division_nonzero (a b : float) :
  PyFloat.eq_zero b = false -> Operation.division a b = Ok (a / b).
Proof.
  intros H. unfold Operation.division. rewrite H. apply truediv_nonzero, H.
Qed.

Lemma division_zero (a b : float) :
  PyFloat.eq_zero b = true ->
  Operation.division a b = Raise (Exn ValueError "Division by zero is not allowed.").
Proof.
  intros H. unfold Operation.division. rewrite H. reflexivity.
Qed.

(** C2. The division primitive returns the quotient [a / b] whenever
    [b != 0], and whenever [b == 0] it raises the error with the message
    "Division by zero is not allowed." and returns no value. *)
Theorem division_quotient_or_error (a b : float) :
  (PyFloat.eq_zero b = false -> Operation.division a b = Ok (a / b)) /\
  (PyFloat.eq_zero b = true ->
     Operation.division a b = Raise (Exn ValueError "Division by zero is not allowed.")
     /\ returned (Operation.division a b) = None).
Proof.
  split.
  - apply division_nonzero.
  - intros H. rewrite (division_zero a b H). split; reflexivity.
Qed.

Lemma division_quotient_or_error_witness :
  Operation.division 10 5 = Ok 2 /\
  Operation.division 10 neg_zero
    = Raise (Exn ValueError "Division by zero is not allowed.").
Proof.
  split.
  - apply (proj1 (division_quotient_or_error 10 5)). reflexivity.
  - apply (proj2 (division_quotient_or_error 10 neg_zero)). reflexivity.
Defined.

Context {I : Interpreter}.

Lemma power_exponent_zero (x w : float) :
  (w =? 0) = true -> Operation.power x w = Ok (VFloat 1).
Proof.
  intros H. unfold Operation.power, PyPow.float_pow. rewrite H. reflexivity.
Qed.

(** A zero under a positive exponent: the result is the base itself or
    plus zero. *)
Lemma power_base_zero (z y : float) :
  (z =? 0) = true -> (0 <? y) = true ->
  Operation.power z y = Ok (VFloat (if PyFloat.is_odd_integer y then z else 0))
  \/ Operation.power z y = Ok (VFloat 0).
Proof.
  intros Hz Hy.
  destruct (FloatFacts.eq_zero_inv z Hz) as [s Hs].
  unfold Operation.power, PyPow.float_pow.
  rewrite Hz.
  rewrite !FloatFacts.is_nan_spec, !FloatFacts.is_infinity_spec.
  rewrite (ltb_spec y 0), (eqb_spec y 0), (eqb_spec (abs z) 1), (ltb_spec 1 (abs z)).
  rewrite Hy, abs_spec, Hs, FloatFacts.Prim2SF_zero.
  destruct (FloatFacts.gt_zero_inv y Hy) as [Hinf | (m & e & Hfin)].
  - rewrite Hinf. right. reflexivity.
  - rewrite Hfin.
    rewrite (FloatFacts.SFeqb_refl (S754_finite false m e)) by discriminate.
    left. reflexivity.
Qed.

(** C6. [power(0, 0)] is 1; [power(x, 0)] is 1 for every [x != 0]; and
    [power(0, y)] is 0 for every [y > 0] (for a base that is minus zero
    the result still equals zero). *)
Theorem power_zero_cases :
  Operation.power 0 0 = Ok (VFloat 1) /\
  (forall x : float, (x =? 0) = false -> Operation.power x 0 = Ok (VFloat 1)) /\
  (forall y : float, (0 <? y) = true -> Operation.power 0 y = Ok (VFloat 0)) /\
  (forall z y : float, (z =? 0) = true -> (0 <? y) = true ->
     exists r, Operation.power z y = Ok (VFloat r) /\ (r =? 0) = true).
Proof.
  split; [| split; [| split]].
  - apply power_exponent_zero. reflexivity.
  - intros x _. apply power_exponent_zero. reflexivity.
  - intros y Hy.
    destruct (power_base_zero 0 y eq_refl Hy) as [H | H]; rewrite H.
    + destruct (PyFloat.is_odd_integer y); reflexivity.
    + reflexivity.
  - intros z y Hz Hy.
    destruct (power_base_zero z y Hz Hy) as [H | H]; rewrite H.
    + destruct (PyFloat.is_odd_integer y); eexists; split; try reflexivity; assumption.
    + eexists; split; reflexivity.
Qed.

End OperationFacts.

(** ** Strings: facts *)

Module StrFacts.

Lemma app_assoc (s t u : string) : (s ++ t) ++ u = s ++ (t ++ u).
Proof.
  induction s as [| c s IH]; cbn; [reflexivity | now rewrite IH].
Qed.

Lemma app_empty_r (s : string) : s ++ "" = s.
Proof.
  induction s as [| c s IH]; cbn; [reflexivity | now rewrite IH].
Qed.

Lemma lower_char_idempotent (c : ascii) :
  PyStr.lower_char (PyStr.lower_char c) = PyStr.lower_char c.
Proof.
  destruct c as [[] [] [] [] [] [] [] []]; reflexivity.
Qed.

Lemma lower_idempotent (s : string) : PyStr.lower (PyStr.lower s) = PyStr.lower s.
Proof.
  induction s as [| c s IH]; cbn.
  - reflexivity.
  - now rewrite lower_char_idempotent, IH.
Qed.

Lemma occurs_in_refl (s : string) : PyStr.occurs_in s s.
Proof. exists "", "". cbn. now rewrite app_empty_r. Qed.

Lemma occurs_in_app_l (k s t : string) :
  PyStr.occurs_in k s -> PyStr.occurs_in k (s ++ t).
Proof.
  intros (pre & post & ->). exists pre, (post ++ t).
  now rewrite !app_assoc.
Qed.

Lemma occurs_in_app_r (k s t : string) :
  PyStr.occurs_in k t -> PyStr.occurs_in k (s ++ t).
Proof.
  intros (pre & post & ->). exists (s ++ pre), post.
  now rewrite !app_assoc.
Qed.

(** Every part shows in the joined string. *)
Lemma occurs_in_join (sep k : string) (parts : list string) :
  In k parts -> PyStr.occurs_in k (PyStr.join sep parts).
Proof.
  induction parts as [| p rest IH]; intros Hin; [destruct Hin |].
  destruct rest as [| q rest'].
  - destruct Hin as [-> | []]. apply occurs_in_refl.
  - change (PyStr.join sep (p :: q :: rest'))
      with (p ++ sep ++ PyStr.join sep (q :: rest')).
    destruct Hin as [-> | Hin].
    + apply occurs_in_app_l, occurs_in_refl.
    + apply occurs_in_app_r, occurs_in_app_r, IH, Hin.
Qed.

End StrFacts.

(** ** Dicts: facts *)

Module DictFacts.

Local Open Scope list_scope.

Section Dict.
Context {V : Type}.
Implicit Types (d : dict V) (k : string) (v : V).

Lemma contains_false_get d k : dict_contains d k = false <-> dict_get d k = None.
Proof.
  unfold dict_contains. destruct (dict_get d k); split; congruence.
Qed.

Lemma get_none_not_in d k : dict_get d k = None <-> ~ In k (dict_keys d).
Proof.
  induction d as [| [k' v'] d IH]; cbn.
  - split; [intros _ [] | reflexivity].
  - destruct (String.eqb_spec k' k) as [-> | Hne].
    + split; [discriminate | intros H; exfalso; apply H; now left].
    + rewrite IH. split.
      * intros H [Heq | Hin]; [congruence | exact (H Hin)].
      * intros H Hin. apply H. now right.
Qed.

(** Setting a key that is not there appends it. *)
Lemma set_fresh d k v :
  dict_get d k = None -> dict_set d k v = d ++ [(k, v)].
Proof.
  induction d as [| [k' v'] d IH]; cbn; [reflexivity |].
  destruct (String.eqb k' k); [discriminate |].
  intros H. now rewrite IH.
Qed.

Lemma get_set_same d k v : dict_get (dict_set d k v) k = Some v.
Proof.
  induction d as [| [k' v'] d IH]; cbn.
  - now rewrite String.eqb_refl.
  - destruct (String.eqb k' k) eqn:E; cbn.
    + now rewrite String.eqb_refl.
    + now rewrite E.
Qed.

Lemma get_set_other d k v k' :
  k' <> k -> dict_get (dict_set d k v) k' = dict_get d k'.
Proof.
  intros Hne. induction d as [| [k0 v0] d IH]; cbn.
  - destruct (String.eqb_spec k k'); [congruence | reflexivity].
  - destruct (String.eqb_spec k0 k) as [-> | Hk0]; cbn.
    + destruct (String.eqb_spec k k'); [congruence | reflexivity].
    + destruct (String.eqb k0 k'); [reflexivity | exact IH].
Qed.

Lemma keys_app d d' : dict_keys (d ++ d') = dict_keys d ++ dict_keys d'.
Proof. apply map_app. Qed.

Lemma count_after_fresh d k v :
  dict_get d k = None ->
  count_occ string_dec (dict_keys (d ++ [(k, v)])) k = 1.
Proof.
  intros H. rewrite keys_app, count_occ_app.
  apply get_none_not_in in H.
  rewrite (proj1 (count_occ_not_In string_dec _ _) H).
  change (dict_keys [(k, v)]) with [k].
  now rewrite (count_occ_cons_eq string_dec [] (eq_refl k)).
Qed.

Lemma nodup_after_fresh d k v :
  dict_get d k = None -> NoDup (dict_keys d) ->
  NoDup (dict_keys (d ++ [(k, v)])).
Proof.
  intros H Hnd. rewrite keys_app. apply NoDup_app; cbn.
  - exact Hnd.
  - constructor; [intros [] | constructor].
  - intros x Hx [<- | []]. apply get_none_not_in in H. exact (H Hx).
Qed.

End Dict.

End DictFacts.

(** ** The factory *)

Section FactoryFacts.

Import CalculationFactory.

(** C3. Registering a name that is present after lowercasing raises the
    duplicate-registration error and leaves the registry as it was;
    registering a fresh name returns the class and stores it, once, under
    the lowercased name, at the end of the registry, every other entry
    staying as it was. *)
Theorem register_duplicate_or_fresh (r : Registry) (name : string) (k : CalcClass) :
  (dict_contains r (PyStr.lower name) = true ->
     register_calculation name k r
     = (Raise (Exn ValueError ("Calculation type '" ++ name ++ "' is already registered.")),
        r)) /\
  (dict_contains r (PyStr.lower name) = false ->
     register_calculation name k r = (Ok k, (r ++ [(PyStr.lower name, k)])%list) /\
     dict_get (r ++ [(PyStr.lower name, k)])%list (PyStr.lower name) = Some k /\
     count_occ string_dec (dict_keys (r ++ [(PyStr.lower name, k)])%list) (PyStr.lower name) = 1 /\
     (forall other, other <> PyStr.lower name ->
        dict_get (r ++ [(PyStr.lower name, k)])%list other = dict_get r other) /\
     (well_formed r -> well_formed (r ++ [(PyStr.lower name, k)])%list)).
Proof.
  split; intros H.
  - unfold register_calculation, bind, get, raise. now rewrite H.
  - pose proof (proj1 (DictFacts.contains_false_get r _) H) as Hget.
    rewrite <- (DictFacts.set_fresh r (PyStr.lower name) k Hget).
    repeat split.
    + unfold register_calculation, bind, get, put, ret. now rewrite H.
    + apply DictFacts.get_set_same.
    + rewrite (DictFacts.set_fresh r _ k Hget).
      now apply DictFacts.count_after_fresh.
    + intros other Hne. now apply DictFacts.get_set_other.
    + rewrite (DictFacts.set_fresh r _ k Hget).
      now apply DictFacts.nodup_after_fresh.
Qed.

Lemma register_duplicate_or_fresh_witness :
  register_calculation "Add" (UserCalculation "DummyCalculation") imported
    = (Raise (Exn ValueError "Calculation type 'Add' is already registered."), imported)
  /\ register_calculation "Modulus" (UserCalculation "ModCalculation") imported
     = (Ok (UserCalculation "ModCalculation"),
        (imported ++ [("modulus", UserCalculation "ModCalculation")])%list).
Proof.
  split.
  - apply (proj1 (register_duplicate_or_fresh imported "Add" _)). reflexivity.
  - apply (proj2 (register_duplicate_or_fresh imported "Modulus" _)). reflexivity.
Defined.

(** C4. For a name that is not registered after lowercasing, [create]
    raises the unsupported-operation error, whose message names the type as
    it was given and lists every registered name, and the registry stays as
    it was; for a registered name it returns an instance of the registered
    class holding the operands [a] and [b]. *)
Theorem create_unknown_or_known (r : Registry) (name : string) (a b : float) :
  (dict_get r (PyStr.lower name) = None ->
     create_calculation name a b r
     = (Raise (Exn ValueError
                 ("Unsupported calculation type: '" ++ name
                  ++ "'. Available types: " ++ PyStr.join ", " (dict_keys r))),
        r)
     /\ (forall key, In key (dict_keys r) ->
           PyStr.occurs_in key
             ("Unsupported calculation type: '" ++ name
              ++ "'. Available types: " ++ PyStr.join ", " (dict_keys r)))) /\
  (forall k, dict_get r (PyStr.lower name) = Some k ->
     create_calculation name a b r = (Ok (new_Calculation k a b), r)).
Proof.
  split.
  - intros H. split.
    + unfold create_calculation, bind, get, raise. now rewrite H.
    + intros key Hin.
      do 3 apply StrFacts.occurs_in_app_r.
      now apply StrFacts.occurs_in_join.
  - intros k H. unfold create_calculation, bind, get, ret. now rewrite H.
Qed.

Lemma create_unknown_or_known_witness :
  create_calculation "modulus" 2 3 imported
    = (Raise (Exn ValueError
                "Unsupported calculation type: 'modulus'. Available types: add, subtract, multiply, divide, power"),
       imported)
  /\ create_calculation "Divide" 2 3 imported
     = (Ok (new_Calculation DivideCalculation 2 3), imported).
Proof.
  split.
  - apply (proj1 (create_unknown_or_known imported "modulus" 2 3)). reflexivity.
  - apply (proj2 (create_unknown_or_known imported "Divide" 2 3)). reflexivity.
Defined.

(** C5. Lookup does not depend on the case of the name: [create] with a
    name and with the lowercased name return the same instance (same class,
    same operands) or both raise, and neither touches the registry; with
    the module imported, "ADD" and "add" both give an [AddCalculation] of
    2 and 3. *)
Theorem create_case_insensitive (r : Registry) (name : string) (a b : float) :
  returned (fst (create_calculation name a b r))
    = returned (fst (create_calculation (PyStr.lower name) a b r)) /\
  snd (create_calculation name a b r) = r /\
  snd (create_calculation (PyStr.lower name) a b r) = r /\
  create_calculation "ADD" 2 3 imported = (Ok (new_Calculation AddCalculation 2 3), imported) /\
  create_calculation "add" 2 3 imported = (Ok (new_Calculation AddCalculation 2 3), imported).
Proof.
  unfold create_calculation, bind, get, ret, raise.
  rewrite StrFacts.lower_idempotent.
  destruct (dict_get r (PyStr.lower name)); cbn; repeat split.
Qed.

End FactoryFacts.

(** ** The calculation variants *)

Section CalculationFacts.

Context {I : Interpreter} {U : UserClasses}.

Lemma execute_divide (fr : Frame) :
  klass (self fr) = DivideCalculation -> execute fr = DivideCalculation_execute fr.
Proof.
  intros H. unfold execute, bind, get_self. now rewrite H.
Qed.

Lemma divide_execute_zero (division : float -> float -> Result float) (fr : Frame) :
  PyFloat.eq_zero (b (self fr)) = true ->
  DivideCalculation_execute_via division fr
  = (Raise (Exn ZeroDivisionError "Cannot divide by zero."), fr).
Proof.
  intros H. unfold DivideCalculation_execute_via, bind, get_self, raise.
  now rewrite H.
Qed.

Lemma divide_execute_nonzero (division : float -> float -> Result float) (fr : Frame) :
  PyFloat.eq_zero (b (self fr)) = false ->
  DivideCalculation_execute_via division fr
  = (Result_map VFloat (division (a (self fr)) (b (self fr))), fr).
Proof.
  intros H. unfold DivideCalculation_execute_via, bind, get_self, call, ret.
  rewrite H. now destruct (division _ _).
Qed.

(** C1. [DivideCalculation.execute] looks at the divisor before it
    delegates: with [b == 0] it raises the zero-division error "Cannot
    divide by zero.", with [b != 0] it returns what [Operation.division]
    returns, the quotient. The primitive has its own check, with another
    message, and both are there. *)
Theorem divide_checks_before_delegating (x y : float) (r : Registry) :
  (PyFloat.eq_zero y = true ->
     execute (new_Frame (new_Calculation DivideCalculation x y) r)
     = (Raise (Exn ZeroDivisionError "Cannot divide by zero."),
        new_Frame (new_Calculation DivideCalculation x y) r)) /\
  (PyFloat.eq_zero y = false ->
     execute (new_Frame (new_Calculation DivideCalculation x y) r)
     = (Result_map VFloat (Operation.division x y), new_Frame (new_Calculation DivideCalculation x y) r)
     /\ Operation.division x y = Ok (x / y)%float) /\
  (PyFloat.eq_zero y = true ->
     Operation.division x y
     = Raise (Exn ValueError "Division by zero is not allowed.")) /\
  Exn ZeroDivisionError "Cannot divide by zero."
    <> Exn ValueError "Division by zero is not allowed.".
Proof.
  split; [| split; [| split]].
  - intros H. rewrite execute_divide by reflexivity.
    now apply divide_execute_zero.
  - intros H. rewrite execute_divide by reflexivity. split.
    + now apply (divide_execute_nonzero Operation.division).
    + now apply division_nonzero.
  - apply division_zero.
  - discriminate.
Qed.

(** C9. Inside [DivideCalculation.execute] the primitive's own zero branch
    is never taken: [execute] never raises a [ValueError], so never the
    primitive's "Division by zero is not allowed."; what the primitive
    would do with a zero divisor has no bearing on [execute]; and whenever
    [execute] delegates, the primitive returns the quotient. *)
Theorem divide_never_reaches_primitive_check (fr : Frame) :
  (forall msg, fst (DivideCalculation_execute fr) <> Raise (Exn ValueError msg)) /\
  (forall d1 d2 : float -> float -> Result float,
     (forall x y, PyFloat.eq_zero y = false -> d1 x y = d2 x y) ->
     DivideCalculation_execute_via d1 fr = DivideCalculation_execute_via d2 fr) /\
  (PyFloat.eq_zero (b (self fr)) = false ->
     DivideCalculation_execute fr
     = (Ok (VFloat (a (self fr) / b (self fr))%float), fr)).
Proof.
  split; [| split].
  - intros msg. unfold DivideCalculation_execute.
    destruct (PyFloat.eq_zero (b (self fr))) eqn:E.
    + rewrite divide_execute_zero by exact E. discriminate.
    + rewrite divide_execute_nonzero by exact E.
      rewrite division_nonzero by exact E. discriminate.
  - intros d1 d2 Hagree.
    destruct (PyFloat.eq_zero (b (self fr))) eqn:E.
    + now rewrite !divide_execute_zero.
    + rewrite !divide_execute_nonzero by exact E. now rewrite Hagree.
  - intros E. unfold DivideCalculation_execute.
    rewrite divide_execute_nonzero by exact E.
    now rewrite division_nonzero.
Qed.

(** The classes of the module: [execute] gives the frame back as it got
    it, and its outcome is a function of the class and the operands. *)
Lemma execute_defined_here (k : CalcClass) (x y : float) (r r' : Registry) :
  defined_here k = true ->
  snd (execute (new_Frame (new_Calculation k x y) r)) = new_Frame (new_Calculation k x y) r /\
  fst (execute (new_Frame (new_Calculation k x y) r)) = fst (execute (new_Frame (new_Calculation k x y) r')).
Proof.
  intros Hk.
  destruct k; try discriminate;
    unfold execute, bind, get_self; cbn [klass self];
    unfold AddCalculation_execute, SubtractCalculation_execute,
      MultiplyCalculation_execute, DivideCalculation_execute,
      DivideCalculation_execute_via, PowerCalculation_execute,
      bind, get_self, ret, raise, call; cbn [a b self];
    try (split; reflexivity).
  destruct (PyFloat.eq_zero y); [split; reflexivity |].
  destruct (Operation.division x y); split; reflexivity.
Qed.

Lemma execute_keeps_frame (fr : Frame) :
defined_here (klass (self fr)) = true -> snd (execute fr) = fr.
Proof.
destruct fr as [[k x y] r]. cbn [klass self]. intros Hk.
apply (execute_defined_here k x y r r Hk).
Qed.

(** C8. For the classes of the module, [execute] is deterministic and has
    no effect: the call leaves the instance (class and operands) and the
    registry as they were; two instances of the same class with the same
    operands get the same outcome, value or exception, whatever the
    registry; and a second call on the same instance repeats the first. *)
Theorem execute_deterministic_no_effect (fr : Frame) :
  defined_here (klass (self fr)) = true ->
  snd (execute fr) = fr /\
  (forall fr2 : Frame,
     klass (self fr2) = klass (self fr) ->
     a (self fr2) = a (self fr) ->
     b (self fr2) = b (self fr) ->
     fst (execute fr2) = fst (execute fr)) /\
  fst (execute (snd (execute fr))) = fst (execute fr).
Proof.
  destruct fr as [[k x y] r]. cbn [klass self]. intros Hk.
  destruct (execute_defined_here k x y r r Hk) as [Hsnd _].
  split; [exact Hsnd | split].
  - intros [[k2 x2 y2] r2]. cbn [klass a b self]. intros -> -> ->.
    apply (execute_defined_here k x y r2 r Hk).
  - now rewrite Hsnd.
Qed.

(** The description of [fr] once [execute] has returned [v]. *)
Lemma str_after_execute (fr fr' : Frame) (v : pyval) :
  execute fr = (Ok v, fr') ->
  Calculation_str fr
  = (Ok (class_name (klass (self fr')) ++ ": "
         ++ PyFormat.float_str (a (self fr')) ++ " "
         ++ PyStr.replace (class_name (klass (self fr'))) "Calculation" "" ++ " "
         ++ PyFormat.float_str (b (self fr')) ++ " = "
         ++ PyFormat.value_str v),
     fr').
Proof.
  intros H. unfold Calculation_str, bind. rewrite H. reflexivity.
Qed.

Lemma str_when_execute_raises (fr fr' : Frame) (e : exn) :
  execute fr = (Raise e, fr') -> Calculation_str fr = (Raise e, fr').
Proof.
  intros H. unfold Calculation_str, bind. rewrite H. reflexivity.
Qed.

(** C7. When [execute] returns a result, the description is
    "<OperationName>: <a> <OperationLabel> <b> = <result>", the name being
    the class name and the label the class name without "Calculation"
    (for the classes of the module the operands are those the instance was
    built with); the debug form is "<OperationName>(a=<a>, b=<b>)"; and an
    [AddCalculation] of 10.0 and 5.0 describes itself as
    "AddCalculation: 10.0 Add 5.0 = 15.0". *)
Theorem description_format (fr : Frame) :
  (forall v fr', execute fr = (Ok v, fr') ->
     Calculation_str fr
     = (Ok (class_name (klass (self fr')) ++ ": "
            ++ PyFormat.float_str (a (self fr')) ++ " "
            ++ PyStr.replace (class_name (klass (self fr'))) "Calculation" "" ++ " "
            ++ PyFormat.float_str (b (self fr')) ++ " = "
            ++ PyFormat.value_str v),
        fr')
     /\ (defined_here (klass (self fr)) = true -> fr' = fr)) /\
  Calculation_repr fr
  = (Ok (class_name (klass (self fr)) ++ "(a=" ++ PyFormat.float_str (a (self fr))
         ++ ", b=" ++ PyFormat.float_str (b (self fr)) ++ ")"),
     fr) /\
  map (fun k => PyStr.replace (class_name k) "Calculation" "")
    [AddCalculation; SubtractCalculation; MultiplyCalculation;
     DivideCalculation; PowerCalculation]
  = ["Add"; "Subtract"; "Multiply"; "Divide"; "Power"] /\
  (forall r,
     Calculation_str (new_Frame (new_Calculation AddCalculation 10 5) r)
     = (Ok "AddCalculation: 10.0 Add 5.0 = 15.0", new_Frame (new_Calculation AddCalculation 10 5) r)) /\
  (forall r,
     Calculation_repr (new_Frame (new_Calculation AddCalculation 10 5) r)
     = (Ok "AddCalculation(a=10.0, b=5.0)", new_Frame (new_Calculation AddCalculation 10 5) r)).
Proof.
  split; [| split; [| split; [| split]]].
  - intros v fr' H. split.
    + now apply str_after_execute.
    + intros Hk.
      pose proof (execute_keeps_frame fr Hk) as Hsnd.
      rewrite H in Hsnd. exact Hsnd.
  - reflexivity.
  - reflexivity.
  - intros r. vm_compute. reflexivity.
  - intros r. vm_compute. reflexivity.
Qed.

(** C10. Taking the description runs the calculation: [__str__] calls
    [execute], so wherever [execute] raises, [__str__] raises the same
    exception and returns no string, and wherever [execute] returns,
    [__str__] returns one; for a [DivideCalculation] with [b == 0] the
    description fails with the zero-division error "Cannot divide by
    zero.". *)
Theorem str_runs_execute (fr : Frame) :
  (forall e fr', execute fr = (Raise e, fr') -> Calculation_str fr = (Raise e, fr')) /\
  (forall v fr', execute fr = (Ok v, fr') -> exists s, Calculation_str fr = (Ok s, fr')) /\
  (klass (self fr) = DivideCalculation ->
   PyFloat.eq_zero (b (self fr)) = true ->
   Calculation_str fr = (Raise (Exn ZeroDivisionError "Cannot divide by zero."), fr)
   /\ returned (fst (Calculation_str fr)) = None).
Proof.
  split; [| split].
  - intros e fr'. apply str_when_execute_raises.
  - intros v fr' H. eexists. apply (str_after_execute fr fr' v H).
  - intros Hk Hb.
    assert (Calculation_str fr
            = (Raise (Exn ZeroDivisionError "Cannot divide by zero."), fr)) as Hstr.
    { apply str_when_execute_raises.
      rewrite execute_divide by exact Hk.
      now apply divide_execute_zero. }
    split; [exact Hstr | now rewrite Hstr].
Qed.

End CalculationFacts.

(** ** Runs of the statements above *)

Local Open Scope float_scope.

Lemma divide_checks_before_delegating_witness :
  execute (I := example_interpreter) (U := example_user_classes)
    (new_Frame (new_Calculation DivideCalculation 10 0) CalculationFactory.imported)
  = (Raise (Exn ZeroDivisionError "Cannot divide by zero."),
     new_Frame (new_Calculation DivideCalculation 10 0) CalculationFactory.imported)
  /\ Operation.division 10 5 = Ok 2
  /\ Operation.division 10 0 = Raise (Exn ValueError "Division by zero is not allowed.").
Proof.
  split; [| split].
  - apply (proj1 (divide_checks_before_delegating 10 0 CalculationFactory.imported)).
    reflexivity.
  - apply (proj1 (proj2 (divide_checks_before_delegating
                           (I := example_interpreter) (U := example_user_classes)
                           10 5 CalculationFactory.imported))).
    reflexivity.
  - apply (proj1 (proj2 (proj2 (divide_checks_before_delegating
                                  (I := example_interpreter) (U := example_user_classes)
                                  10 0 CalculationFactory.imported)))).
    reflexivity.
Defined.

Lemma power_zero_cases_witness :
  Operation.power (I := example_interpreter) (-7) 0 = Ok (VFloat 1)
  /\ Operation.power (I := example_interpreter) 0 infinity = Ok (VFloat 0)
  /\ exists r, Operation.power (I := example_interpreter) neg_zero 3 = Ok (VFloat r)
               /\ (r =? 0) = true.
Proof.
  split; [| split].
  - apply (proj1 (proj2 (power_zero_cases (I := example_interpreter)))). reflexivity.
  - apply (proj1 (proj2 (proj2 (power_zero_cases (I := example_interpreter))))).
    reflexivity.
  - apply (proj2 (proj2 (proj2 (power_zero_cases (I := example_interpreter))))).
    + reflexivity.
    + reflexivity.
Defined.

Lemma divide_never_reaches_primitive_check_witness :
  DivideCalculation_execute_via Operation.division
    (new_Frame (new_Calculation DivideCalculation 10 4) CalculationFactory.imported)
  = DivideCalculation_execute_via (fun x y => Ok (x / y))
      (new_Frame (new_Calculation DivideCalculation 10 4) CalculationFactory.imported)
  /\ DivideCalculation_execute
       (new_Frame (new_Calculation DivideCalculation 10 4) CalculationFactory.imported)
     = (Ok (VFloat 2.5),
        new_Frame (new_Calculation DivideCalculation 10 4) CalculationFactory.imported).
Proof.
  split.
  - apply (proj1 (proj2 (divide_never_reaches_primitive_check _))).
    intros x y Hy. unfold Operation.division, PyFloat.truediv.
    rewrite Hy. unfold PyFloat.eq_zero in Hy. now rewrite Hy.
  - apply (proj2 (proj2 (divide_never_reaches_primitive_check
                           (new_Frame (new_Calculation DivideCalculation 10 4)
                              CalculationFactory.imported)))).
    reflexivity.
Defined.

Lemma execute_deterministic_no_effect_witness :
  snd (execute (I := example_interpreter) (U := example_user_classes)
         (new_Frame (new_Calculation PowerCalculation 0 0) CalculationFactory.imported))
  = new_Frame (new_Calculation PowerCalculation 0 0) CalculationFactory.imported.
Proof.
  apply (proj1 (execute_deterministic_no_effect
                  (I := example_interpreter) (U := example_user_classes)
                  (new_Frame (new_Calculation PowerCalculation 0 0)
                     CalculationFactory.imported)
                  eq_refl)).
Defined.

Lemma description_format_witness :
  Calculation_str (I := example_interpreter) (U := example_user_classes)
    (new_Frame (new_Calculation DivideCalculation 10 (-4)) [])
  = (Ok "DivideCalculation: 10.0 Divide -4.0 = -2.5",
     new_Frame (new_Calculation DivideCalculation 10 (-4)) []).
Proof.
  apply (proj1 (proj1 (description_format
                         (I := example_interpreter) (U := example_user_classes)
                         (new_Frame (new_Calculation DivideCalculation 10 (-4)) []))
                  (VFloat (-2.5))
                  (new_Frame (new_Calculation DivideCalculation 10 (-4)) [])
                  eq_refl)).
Defined.

Lemma str_runs_execute_witness :
  Calculation_str (I := example_interpreter) (U := example_user_classes)
    (new_Frame (new_Calculation DivideCalculation 10 0) CalculationFactory.imported)
  = (Raise (Exn ZeroDivisionError "Cannot divide by zero."),
     new_Frame (new_Calculation DivideCalculation 10 0) CalculationFactory.imported).
Proof.
  apply (proj2 (proj2 (str_runs_execute
                         (I := example_interpreter) (U := example_user_classes)
                         (new_Frame (new_Calculation DivideCalculation 10 0)
                            CalculationFactory.imported)))).
  - reflexivity.
  - reflexivity.
Defined.

(** A subclass from outside the module may well change its instance: the
    restriction to the classes of the module is needed. *)
Example user_class_overwrites_operand :
  snd (execute (I := example_interpreter) (U := example_user_classes)
         (new_Frame (new_Calculation (UserCalculation "ResetCalculation") 3 4) []))
  = new_Frame (new_Calculation (UserCalculation "ResetCalculation") 0 4) [].
Proof. reflexivity. Qed.

(** ** More on the arithmetic primitives *)

Module FloatArith.

Local Open Scope float_scope.

Lemma SFadd_comm (p e : Z) (x y : spec_float) : SFadd p e x y = SFadd p e y x.
Proof.
  destruct x as [sx | sx | | sx mx ex], y as [sy | sy | | sy my ey]; cbn;
    try reflexivity; try (destruct sx, sy; reflexivity).
  rewrite Z.min_comm. f_equal. apply Z.add_comm.
Qed.

Lemma SFmul_comm (p e : Z) (x y : spec_float) : SFmul p e x y = SFmul p e y x.
Proof.
  destruct x as [sx | sx | | sx mx ex], y as [sy | sy | | sy my ey]; cbn;
    try reflexivity; try (destruct sx, sy; reflexivity).
  rewrite xorb_comm, Pos.mul_comm, Z.add_comm. reflexivity.
Qed.

Lemma SFsub_add_opp (p e : Z) (x y : spec_float) :
  SFsub p e x y = SFadd p e x (SFopp y).
Proof.
  destruct x as [sx | sx | | sx mx ex], y as [sy | sy | | sy my ey]; cbn;
    try reflexivity; destruct sx, sy; reflexivity.
Qed.

(** The tests [x == 0], [isnan(x)] and [isinf(x)], by the shape of [x]. *)
Lemma tests_by_shape (x : float) :
  match Prim2SF x with
  | S754_zero _ => PyFloat.eq_zero x = true /\ is_nan x = false /\ is_infinity x = false
  | S754_infinity _ => PyFloat.eq_zero x = false /\ is_nan x = false /\ is_infinity x = true
  | S754_nan => PyFloat.eq_zero x = false /\ is_nan x = true /\ is_infinity x = false
  | S754_finite _ _ _ =>
      PyFloat.eq_zero x = false /\ is_nan x = false /\ is_infinity x = false
  end.
Proof.
  unfold PyFloat.eq_zero.
  rewrite FloatFacts.is_nan_spec, FloatFacts.is_infinity_spec, eqb_spec,
    FloatFacts.Prim2SF_zero.
  destruct (Prim2SF x) as [s | s | | s m e] eqn:E.
  - repeat split; destruct s; reflexivity.
  - repeat split; destruct s; reflexivity.
  - repeat split; reflexivity.
  - rewrite (FloatFacts.SFeqb_refl (S754_finite s m e)) by discriminate.
    repeat split; destruct s; reflexivity.
Qed.

Lemma nan_of_shape (x : float) : Prim2SF x = S754_nan -> x = nan.
Proof. intros H. apply Prim2SF_inj. rewrite H. reflexivity. Qed.

Lemma zero_of_shape (x : float) (s : bool) :
  Prim2SF x = S754_zero s -> PyFloat.eq_zero x = true.
Proof. intros H. pose proof (tests_by_shape x) as T. rewrite H in T. apply T. Qed.

Lemma infinity_of_shape (x : float) (s : bool) :
  Prim2SF x = S754_infinity s -> is_infinity x = true.
Proof. intros H. pose proof (tests_by_shape x) as T. rewrite H in T. apply T. Qed.

End FloatArith.

Section MoreOperationFacts.

Local Open Scope float_scope.

(** X1. Addition and multiplication do not depend on the order of their
    operands, whatever the floats (zeros, infinities and nan included). *)
Theorem addition_multiplication_commute (x y : float) :
  Operation.addition x y = Operation.addition y x /\
  Operation.multiplication x y = Operation.multiplication y x.
Proof.
  unfold Operation.addition, Operation.multiplication. split.
  - apply Prim2SF_inj. rewrite !add_spec. apply FloatArith.SFadd_comm.
  - apply Prim2SF_inj. rewrite !mul_spec. apply FloatArith.SFmul_comm.
Qed.

(** X2. Subtracting [y] is adding its opposite, exactly: no rounding and no
    special value tells the two apart. *)
Theorem subtraction_adds_the_opposite (x y : float) :
  Operation.subtraction x y = Operation.addition x (- y).
Proof.
  unfold Operation.subtraction, Operation.addition.
  apply Prim2SF_inj. rewrite sub_spec, add_spec, opp_spec.
  apply FloatArith.SFsub_add_opp.
Qed.

(** X3. Division on the special values: a nan divisor gives nan and no
    error, and so does a nan dividend over a divisor that is not zero; a zero
    divided by anything but a zero or nan is a zero; a finite number divided
    by an infinity is a zero; an infinity divided by a finite number other
    than zero is an infinity. *)
Theorem division_special_values (x y : float) :
  (is_nan y = true -> Operation.division x y = Ok nan) /\
  (is_nan x = true -> PyFloat.eq_zero y = false -> Operation.division x y = Ok nan) /\
  (PyFloat.eq_zero x = true -> PyFloat.eq_zero y = false -> is_nan y = false ->
     exists q, Operation.division x y = Ok q /\ PyFloat.eq_zero q = true) /\
  (is_infinity y = true -> is_infinity x = false -> is_nan x = false ->
     exists q, Operation.division x y = Ok q /\ PyFloat.eq_zero q = true) /\
  (is_infinity x = true -> is_infinity y = false -> is_nan y = false ->
   PyFloat.eq_zero y = false ->
     exists q, Operation.division x y = Ok q /\ is_infinity q = true).
Proof.
  pose proof (FloatArith.tests_by_shape x) as Tx.
  pose proof (FloatArith.tests_by_shape y) as Ty.
  pose proof (div_spec x y) as D. unfold SF64div in D.
  destruct (Prim2SF x) as [sx | sx | | sx mx ex] eqn:Ex;
    destruct (Prim2SF y) as [sy | sy | | sy my ey] eqn:Ey;
    destruct Tx as (Zx & Nx & Ix); destruct Ty as (Zy & Ny & Iy);
    rewrite ?Zx, ?Nx, ?Ix, ?Zy, ?Ny, ?Iy;
    (split; [| split; [| split; [| split]]]); intros;
    try discriminate;
    try (rewrite (division_nonzero x y Zy); cbn in D;
         first [ rewrite (FloatArith.nan_of_shape _ D); reflexivity
               | eexists; split;
                 [ reflexivity
                 | first [ exact (FloatArith.zero_of_shape _ _ D)
                         | exact (FloatArith.infinity_of_shape _ _ D) ] ] ]).
Qed.

Lemma division_special_values_witness :
  Operation.division 3 nan = Ok nan
  /\ Operation.division nan 3 = Ok nan
  /\ (exists q, Operation.division neg_zero 3 = Ok q /\ PyFloat.eq_zero q = true)
  /\ (exists q, Operation.division 3 neg_infinity = Ok q /\ PyFloat.eq_zero q = true)
  /\ (exists q, Operation.division infinity (-3) = Ok q /\ is_infinity q = true).
Proof.
  split; [| split; [| split; [| split]]].
  - apply (proj1 (division_special_values 3 nan)). reflexivity.
  - apply (proj1 (proj2 (division_special_values nan 3))); reflexivity.
  - apply (proj1 (proj2 (proj2 (division_special_values neg_zero 3))));
      reflexivity.
  - apply (proj1 (proj2 (proj2 (proj2 (division_special_values 3 neg_infinity)))));
      reflexivity.
  - apply (proj2 (proj2 (proj2 (proj2 (division_special_values infinity (-3))))));
      reflexivity.
Defined.

End MoreOperationFacts.

(** ** More on the calculation variants *)

Section MoreCalculationFacts.

Local Open Scope float_scope.

Lemma eq_zero_iff (x : float) :
  PyFloat.eq_zero x = true <-> x = 0 \/ x = neg_zero.
Proof.
  unfold PyFloat.eq_zero. split.
  - intros H. destruct (FloatFacts.eq_zero_inv x H) as [s Hs].
    rewrite <- (SF2Prim_Prim2SF x), Hs. destruct s; cbn; auto.
  - intros [-> | ->]; reflexivity.
Qed.

(** X4. [DivideCalculation.execute] refuses exactly the two zeros: with
    [b] plus or minus zero it raises "Cannot divide by zero."; with any
    other [b], nan and the infinities included, it returns the quotient. *)
Theorem divide_refuses_exactly_the_zeros (fr : Frame) :
  (b (self fr) = 0 \/ b (self fr) = neg_zero ->
     DivideCalculation_execute fr
     = (Raise (Exn ZeroDivisionError "Cannot divide by zero."), fr)) /\
  (b (self fr) <> 0 -> b (self fr) <> neg_zero ->
     DivideCalculation_execute fr
     = (Ok (VFloat (a (self fr) / b (self fr))), fr)).
Proof.
  split.
  - intros H. apply divide_execute_zero, eq_zero_iff, H.
  - intros H0 H1.
    assert (PyFloat.eq_zero (b (self fr)) = false) as E.
    { destruct (PyFloat.eq_zero (b (self fr))) eqn:E; [| reflexivity].
      apply eq_zero_iff in E. destruct E; contradiction. }
    unfold DivideCalculation_execute.
    rewrite divide_execute_nonzero by exact E.
    now rewrite division_nonzero.
Qed.

Lemma divide_refuses_exactly_the_zeros_witness :
  DivideCalculation_execute (new_Frame (new_Calculation DivideCalculation 1 neg_zero) [])
  = (Raise (Exn ZeroDivisionError "Cannot divide by zero."),
     new_Frame (new_Calculation DivideCalculation 1 neg_zero) [])
  /\ DivideCalculation_execute (new_Frame (new_Calculation DivideCalculation 1 nan) [])
     = (Ok (VFloat nan), new_Frame (new_Calculation DivideCalculation 1 nan) []).
Proof.
  split.
  - apply (proj1 (divide_refuses_exactly_the_zeros
                    (new_Frame (new_Calculation DivideCalculation 1 neg_zero) []))).
    right. reflexivity.
  - apply (proj2 (divide_refuses_exactly_the_zeros
                    (new_Frame (new_Calculation DivideCalculation 1 nan) []))).
    + cbn. intros H. apply (f_equal is_nan) in H. discriminate H.
    + cbn. intros H. apply (f_equal is_nan) in H. discriminate H.
Defined.

Context {I : Interpreter} {U : UserClasses}.

(** X5. [PowerCalculation.execute] has no check of its own: a zero base
    under a negative finite exponent raises a [ZeroDivisionError], which
    comes from the interpreter, while under minus infinity it returns plus
    infinity; the instance and the registry stay as they were. *)
Theorem power_zero_base_negative_exponent (x y : float) (r : Registry) :
  PyFloat.eq_zero x = true -> (y <? 0) = true ->
  (is_infinity y = false ->
     exists msg,
       execute (new_Frame (new_Calculation PowerCalculation x y) r)
       = (Raise (Exn ZeroDivisionError msg),
          new_Frame (new_Calculation PowerCalculation x y) r)) /\
  (is_infinity y = true ->
     execute (new_Frame (new_Calculation PowerCalculation x y) r)
     = (Ok (VFloat infinity), new_Frame (new_Calculation PowerCalculation x y) r)).
Proof.
  intros Hx Hy.
  destruct (FloatFacts.eq_zero_inv x Hx) as [s Hs].
  pose proof (FloatArith.tests_by_shape y) as Ty.
  assert (Hy' := Hy). rewrite ltb_spec, FloatFacts.Prim2SF_zero in Hy'.
  unfold execute, bind, get_self; cbn [klass self].
  unfold PowerCalculation_execute, bind, get_self, call; cbn [a b self].
  unfold Operation.power, PyPow.float_pow.
  unfold PyFloat.eq_zero in Hx. rewrite Hx.
  assert (is_nan x = false) as Nx.
  { rewrite FloatFacts.is_nan_spec, Hs. reflexivity. }
  assert (is_infinity x = false) as Ix.
  { rewrite FloatFacts.is_infinity_spec, Hs. reflexivity. }
  assert ((abs x =? 1) = false) as A1.
  { rewrite eqb_spec, abs_spec, Hs. reflexivity. }
  assert ((1 <? abs x) = false) as L1.
  { rewrite ltb_spec, abs_spec, Hs. reflexivity. }
  assert ((0 <? y) = false) as P.
  { rewrite ltb_spec, FloatFacts.Prim2SF_zero.
    destruct (Prim2SF y) as [sy | sy | | sy my ey]; cbn in Hy' |- *;
      try discriminate; destruct sy; try discriminate; reflexivity. }
  rewrite Nx, Ix, A1, L1, P, Hy.
  destruct (Prim2SF y) as [sy | sy | | sy my ey] eqn:Ey; cbn in Hy';
    try discriminate; destruct Ty as (Zy & Ny & Iy);
    unfold PyFloat.eq_zero in Zy; rewrite Zy, Ny, Iy.
  - split; [discriminate |]. intros _. cbn.
    replace (abs y) with infinity; [reflexivity |].
    apply Prim2SF_inj. rewrite abs_spec, Ey. reflexivity.
  - split; [intros _; eexists; reflexivity | discriminate].
Qed.

End MoreCalculationFacts.

Lemma power_zero_base_negative_exponent_witness :
  (exists msg,
     execute (I := example_interpreter) (U := example_user_classes)
       (new_Frame (new_Calculation PowerCalculation 0 (-1)%float) [])
     = (Raise (Exn ZeroDivisionError msg),
        new_Frame (new_Calculation PowerCalculation 0 (-1)%float) []))
  /\ execute (I := example_interpreter) (U := example_user_classes)
       (new_Frame (new_Calculation PowerCalculation neg_zero neg_infinity) [])
     = (Ok (VFloat infinity),
        new_Frame (new_Calculation PowerCalculation neg_zero neg_infinity) []).
Proof.
  split.
  - apply (proj1 (power_zero_base_negative_exponent
                    (I := example_interpreter) (U := example_user_classes)
                    0 (-1) [] eq_refl eq_refl)).
    reflexivity.
  - apply (proj2 (power_zero_base_negative_exponent
                    (I := example_interpreter) (U := example_user_classes)
                    neg_zero neg_infinity [] eq_refl eq_refl)).
    reflexivity.
Defined.

(** ** More on the factory *)

Section MoreFactoryFacts.

Import CalculationFactory.

Local Open Scope list_scope.

Lemma get_app {V : Type} (d d' : dict V) (key : string) :
  dict_get (d ++ d') key
  = match dict_get d key with
    | Some v => Some v
    | None => dict_get d' key
    end.
Proof.
  induction d as [| [k0 v0] d IH]; cbn; [reflexivity |].
  destruct (String.eqb k0 key); [reflexivity | exact IH].
Qed.

Lemma contains_app_one {V : Type} (d : dict V) (k key : string) (v : V) :
  dict_contains (d ++ [(k, v)]) key = dict_contains d key || String.eqb k key.
Proof.
  unfold dict_contains. rewrite get_app. cbn.
  destruct (dict_get d key); [reflexivity |].
  destruct (String.eqb k key); reflexivity.
Qed.

Lemma register_present (r : Registry) (name : string) (k : CalcClass) :
  dict_contains r (PyStr.lower name) = true ->
  register_calculation name k r
  = (Raise (Exn ValueError
              ("Calculation type '" ++ name ++ "' is already registered.")%string),
     r).
Proof.
  intros H. unfold register_calculation, bind, get, raise. now rewrite H.
Qed.

Lemma register_fresh (r : Registry) (name : string) (k : CalcClass) :
  dict_contains r (PyStr.lower name) = false ->
  register_calculation name k r = (Ok k, r ++ [(PyStr.lower name, k)]).
Proof.
  intros H. unfold register_calculation, bind, get, put, ret. rewrite H.
  rewrite DictFacts.set_fresh; [reflexivity |].
  now apply DictFacts.contains_false_get.
Qed.

Lemma create_found (r : Registry) (name : string) (x y : float) (k : CalcClass) :
  dict_get r (PyStr.lower name) = Some k ->
  create_calculation name x y r = (Ok (new_Calculation k x y), r).
Proof.
  intros H. unfold create_calculation, bind, get, ret. now rewrite H.
Qed.

(** After a registration, successful or not, the lowercased name is a key. *)
Lemma registered_after (r : Registry) (name : string) (k : CalcClass) :
  dict_contains (snd (register_calculation name k r)) (PyStr.lower name) = true.
Proof.
  destruct (dict_contains r (PyStr.lower name)) eqn:E.
  - now rewrite register_present.
  - rewrite register_fresh by exact E. cbn [snd].
    rewrite contains_app_one, String.eqb_refl. apply orb_true_r.
Qed.

(** X6. Register, then create: once a fresh name is registered, [create]
    under that name, in any spelling of upper and lower case, returns an
    instance of the class that was registered, with the operands given. *)
Theorem register_then_create
    (r : Registry) (name name' : string) (k : CalcClass) (x y : float) :
  dict_contains r (PyStr.lower name) = false ->
  PyStr.lower name' = PyStr.lower name ->
  create_calculation name' x y (snd (register_calculation name k r))
  = (Ok (new_Calculation k x y), snd (register_calculation name k r)).
Proof.
  intros Hfresh Hsame. rewrite register_fresh by exact Hfresh. cbn [snd].
  apply create_found. rewrite Hsame, get_app.
  apply DictFacts.contains_false_get in Hfresh. rewrite Hfresh. cbn.
  now rewrite String.eqb_refl.
Qed.

Lemma register_then_create_witness :
  create_calculation "MODULUS" 7 2
    (snd (register_calculation "Modulus" (UserCalculation "ModCalculation") imported))
  = (Ok (new_Calculation (UserCalculation "ModCalculation") 7 2),
     snd (register_calculation "Modulus" (UserCalculation "ModCalculation") imported)).
Proof.
  apply (register_then_create imported "Modulus" "MODULUS" _ 7 2); reflexivity.
Defined.

(** X7. A registration never changes what is there: whether it succeeds or
    raises, every key keeps its class, so every name that [create] accepted
    before gives the same instance after. *)
Theorem register_keeps_existing (r : Registry) (name : string) (k : CalcClass) :
  (forall key k0, dict_get r key = Some k0 ->
     dict_get (snd (register_calculation name k r)) key = Some k0) /\
  (forall n x y c, fst (create_calculation n x y r) = Ok c ->
     create_calculation n x y (snd (register_calculation name k r))
     = (Ok c, snd (register_calculation name k r))).
Proof.
  assert (forall key k0, dict_get r key = Some k0 ->
            dict_get (snd (register_calculation name k r)) key = Some k0) as Hkeep.
  { intros key k0 Hget.
    destruct (dict_contains r (PyStr.lower name)) eqn:E.
    - now rewrite register_present.
    - rewrite register_fresh by exact E. cbn [snd].
      rewrite get_app, Hget. reflexivity. }
  split; [exact Hkeep |].
  intros n x y c Hc. unfold create_calculation, bind, get, ret, raise in Hc.
  destruct (dict_get r (PyStr.lower n)) as [k0 |] eqn:Hget; cbn in Hc;
    [| discriminate].
  injection Hc as <-. apply create_found, Hkeep, Hget.
Qed.

Lemma register_keeps_existing_witness :
  create_calculation "Add" 1 2
    (snd (register_calculation "add" (UserCalculation "DummyCalculation") imported))
  = (Ok (new_Calculation AddCalculation 1 2),
     snd (register_calculation "add" (UserCalculation "DummyCalculation") imported)).
Proof.
  apply (proj2 (register_keeps_existing imported "add"
                  (UserCalculation "DummyCalculation"))).
  reflexivity.
Defined.

(** X8. Registrations keep the registry in shape: if no key is there twice
    and every key is lowercase, the same holds after a registration, whether
    it succeeds or raises, and what was registered before stays in front, in
    its order. *)
Theorem register_keeps_invariants (r : Registry) (name : string) (k : CalcClass) :
  well_formed r -> keys_lowercase r ->
  well_formed (snd (register_calculation name k r)) /\
  keys_lowercase (snd (register_calculation name k r)) /\
  exists tail, snd (register_calculation name k r) = r ++ tail.
Proof.
  intros Hwf Hlow.
  destruct (dict_contains r (PyStr.lower name)) eqn:E.
  - rewrite register_present by exact E. cbn [snd].
    repeat split; try assumption. exists []. now rewrite app_nil_r.
  - rewrite register_fresh by exact E. cbn [snd]. split; [| split].
    + apply DictFacts.nodup_after_fresh; [| exact Hwf].
      now apply DictFacts.contains_false_get.
    + unfold keys_lowercase. rewrite DictFacts.keys_app.
      apply Forall_app. split; [exact Hlow |].
      constructor; [apply StrFacts.lower_idempotent | constructor].
    + now eexists.
Qed.

Lemma imported_in_shape : well_formed imported /\ keys_lowercase imported.
Proof.
  split.
  - unfold well_formed.
    change (dict_keys imported)
      with ["add"; "subtract"; "multiply"; "divide"; "power"]%string.
    repeat (constructor; [cbn; intuition discriminate |]). constructor.
  - unfold keys_lowercase.
    change (dict_keys imported)
      with ["add"; "subtract"; "multiply"; "divide"; "power"]%string.
    repeat constructor.
Qed.

Lemma register_keeps_invariants_witness :
  well_formed (snd (register_calculation "Sqrt" (UserCalculation "SqrtCalculation") imported))
  /\ keys_lowercase
       (snd (register_calculation "Sqrt" (UserCalculation "SqrtCalculation") imported)).
Proof.
  destruct (register_keeps_invariants imported "Sqrt" (UserCalculation "SqrtCalculation")
              (proj1 imported_in_shape) (proj2 imported_in_shape)) as (H1 & H2 & _).
  split; assumption.
Defined.

(** X9. The same name cannot be registered twice: after a registration of a
    name, any further registration under that name, in any spelling of upper
    and lower case and for any class, raises the duplicate error and leaves
    the registry as it was. *)
Theorem second_registration_fails
    (r : Registry) (name name' : string) (k k' : CalcClass) :
  PyStr.lower name' = PyStr.lower name ->
  register_calculation name' k' (snd (register_calculation name k r))
  = (Raise (Exn ValueError
              ("Calculation type '" ++ name' ++ "' is already registered.")%string),
     snd (register_calculation name k r)).
Proof.
  intros Hsame. apply register_present. rewrite Hsame. apply registered_after.
Qed.

Lemma second_registration_fails_witness :
  register_calculation "ROOT" AddCalculation
    (snd (register_calculation "root" (UserCalculation "RootCalculation") []))
  = (Raise (Exn ValueError "Calculation type 'ROOT' is already registered."),
     [("root", UserCalculation "RootCalculation")]).
Proof.
  apply (second_registration_fails [] "root" "ROOT"). reflexivity.
Defined.

Ltac lower_literals :=
  repeat match goal with
    | |- context [PyStr.lower ?s] =>
        let s' := eval vm_compute in (PyStr.lower s) in
        change (PyStr.lower s) with s'
    end.

Ltac fresh_key H :=
  lower_literals; rewrite !contains_app_one; rewrite H; reflexivity.

(** X10. The body of the module on any registry: if none of the five names
    is a key, the five classes are appended in the order of the source; if
    "add" is a key, the first decorator raises and nothing is registered; if
    "subtract" is a key and "add" is not, the second decorator raises and
    the registration of "add" stays. *)
Theorem module_body_extends_or_stops (r : Registry) :
  (dict_contains r "add" = false -> dict_contains r "subtract" = false ->
   dict_contains r "multiply" = false -> dict_contains r "divide" = false ->
   dict_contains r "power" = false ->
     module_body r
     = (Ok tt, r ++ [("add", AddCalculation); ("subtract", SubtractCalculation);
                     ("multiply", MultiplyCalculation); ("divide", DivideCalculation);
                     ("power", PowerCalculation)])) /\
  (dict_contains r "add" = true ->
     module_body r
     = (Raise (Exn ValueError "Calculation type 'add' is already registered."), r)) /\
  (dict_contains r "add" = false -> dict_contains r "subtract" = true ->
     module_body r
     = (Raise (Exn ValueError "Calculation type 'subtract' is already registered."),
        r ++ [("add", AddCalculation)])).
Proof.
  split; [| split].
  - intros Ha Hs Hm Hd Hp. unfold module_body, bind.
    rewrite (register_fresh r "add") by exact Ha.
    rewrite (register_fresh _ "subtract") by fresh_key Hs.
    rewrite (register_fresh _ "multiply") by fresh_key Hm.
    rewrite (register_fresh _ "divide") by fresh_key Hd.
    rewrite (register_fresh _ "power") by fresh_key Hp.
    unfold ret. lower_literals. rewrite <- !app_assoc. reflexivity.
  - intros Ha. unfold module_body, bind.
    now rewrite (register_present r "add") by exact Ha.
  - intros Ha Hs. unfold module_body, bind.
    rewrite (register_fresh r "add") by exact Ha.
    rewrite (register_present _ "subtract") by fresh_key Hs.
    reflexivity.
Qed.

Lemma module_body_extends_or_stops_witness :
  module_body [("modulus", UserCalculation "ModCalculation")]
  = (Ok tt, [("modulus", UserCalculation "ModCalculation"); ("add", AddCalculation);
             ("subtract", SubtractCalculation); ("multiply", MultiplyCalculation);
             ("divide", DivideCalculation); ("power", PowerCalculation)])
  /\ module_body imported
     = (Raise (Exn ValueError "Calculation type 'add' is already registered."), imported)
  /\ module_body [("subtract", UserCalculation "Minus")]
     = (Raise (Exn ValueError "Calculation type 'subtract' is already registered."),
        [("subtract", UserCalculation "Minus"); ("add", AddCalculation)]).
Proof.
  split; [| split].
  - apply (proj1 (module_body_extends_or_stops
                    [("modulus", UserCalculation "ModCalculation")])); reflexivity.
  - apply (proj1 (proj2 (module_body_extends_or_stops imported))). reflexivity.
  - apply (proj2 (proj2 (module_body_extends_or_stops
                           [("subtract", UserCalculation "Minus")]))); reflexivity.
Defined.

End MoreFactoryFacts.

(** ** From a name to a result, and the label of a description *)

Section PipelineFacts.

Import CalculationFactory.

Local Open Scope float_scope.

Context {I : Interpreter} {U : UserClasses}.

Lemma create_imported (name : string) (x y : float) (key : string) (k : CalcClass) :
  PyStr.lower name = key -> dict_get imported key = Some k ->
  create_calculation name x y imported = (Ok (new_Calculation k x y), imported).
Proof.
  intros <- Hget. unfold create_calculation, bind, get, ret. now rewrite Hget.
Qed.

(** X11. With the module imported, each of the five names, in any spelling
    of upper and lower case, leads to its own primitive: [create] returns an
    instance whose [execute] gives [x + y] for "add", [x - y] for
    "subtract", [x * y] for "multiply", the result of [Operation.power] for
    "power", and for "divide" the quotient, or the error "Cannot divide by
    zero." when [y == 0]. Creating never looks at the operands. *)
Theorem create_then_execute (name : string) (x y : float) :
  (PyStr.lower name = "add"%string ->
     create_calculation name x y imported
     = (Ok (new_Calculation AddCalculation x y), imported)
     /\ fst (execute (new_Frame (new_Calculation AddCalculation x y) imported))
        = Ok (VFloat (x + y))) /\
  (PyStr.lower name = "subtract"%string ->
     create_calculation name x y imported
     = (Ok (new_Calculation SubtractCalculation x y), imported)
     /\ fst (execute (new_Frame (new_Calculation SubtractCalculation x y) imported))
        = Ok (VFloat (x - y))) /\
  (PyStr.lower name = "multiply"%string ->
     create_calculation name x y imported
     = (Ok (new_Calculation MultiplyCalculation x y), imported)
     /\ fst (execute (new_Frame (new_Calculation MultiplyCalculation x y) imported))
        = Ok (VFloat (x * y))) /\
  (PyStr.lower name = "divide"%string ->
     create_calculation name x y imported
     = (Ok (new_Calculation DivideCalculation x y), imported)
     /\ fst (execute (new_Frame (new_Calculation DivideCalculation x y) imported))
        = if PyFloat.eq_zero y
          then Raise (Exn ZeroDivisionError "Cannot divide by zero.")
          else Ok (VFloat (x / y))) /\
  (PyStr.lower name = "power"%string ->
     create_calculation name x y imported
     = (Ok (new_Calculation PowerCalculation x y), imported)
     /\ fst (execute (new_Frame (new_Calculation PowerCalculation x y) imported))
        = Operation.power x y).
Proof.
  split; [| split; [| split; [| split]]]; intros Hname;
    (split; [now apply (create_imported name x y _ _ Hname) |]);
    try reflexivity.
  rewrite execute_divide by reflexivity.
  unfold DivideCalculation_execute.
  destruct (PyFloat.eq_zero y) eqn:E.
  - now rewrite divide_execute_zero by exact E.
  - rewrite divide_execute_nonzero by exact E. cbn [fst a b self].
    now rewrite division_nonzero by exact E.
Qed.

End PipelineFacts.

Lemma create_then_execute_witness :
  CalculationFactory.create_calculation "SubTract" 10 4 CalculationFactory.imported
  = (Ok (new_Calculation SubtractCalculation 10 4), CalculationFactory.imported)
  /\ fst (execute (I := example_interpreter) (U := example_user_classes)
            (new_Frame (new_Calculation SubtractCalculation 10 4)
               CalculationFactory.imported))
     = Ok (VFloat 6).
Proof.
  apply (proj1 (proj2 (create_then_execute
                         (I := example_interpreter) (U := example_user_classes)
                         "SubTract" 10 4))).
  reflexivity.
Defined.

Section LabelFacts.

Lemma prefix_inv (old s : string) :
  prefix old s = true -> exists post, s = old ++ post.
Proof.
  revert s. induction old as [| c old IH]; intros s H.
  - exists s. reflexivity.
  - destruct s as [| d s]; cbn in H; [discriminate |].
    destruct (ascii_dec c d) as [-> | _]; [| discriminate].
    destruct (IH s H) as [post ->]. exists post. reflexivity.
Qed.

Lemma prefix_one (c : ascii) (s : string) : prefix (String c "") (String c s) = true.
Proof.
  cbn. destruct (ascii_dec c c); [now destruct s | congruence].
Qed.

(** Where [old] does not occur, [replace] changes nothing. *)
Lemma replace_absent (s old new : string) :
  old <> "" -> str_contains old s = false -> PyStr.replace s old new = s.
Proof.
  intros Hold. unfold PyStr.replace.
  destruct old as [| c0 old0]; [congruence |].
  induction s as [| c s IH]; intros Habs; [reflexivity |].
  cbn [str_contains] in Habs. apply orb_false_elim in Habs as [P Htail].
  cbn [PyStr.replace_from]. rewrite P. f_equal. apply IH, Htail.
Qed.

(** A name that ends in "Calculation", with no capital C before. *)
Lemma replace_suffix (p : string) :
  str_contains "C" p = false ->
  PyStr.replace (p ++ "Calculation") "Calculation" "" = p.
Proof.
  unfold PyStr.replace.
  induction p as [| c p IH]; intros Habs; [reflexivity |].
  cbn [str_contains] in Habs. apply orb_false_elim in Habs as [P1 Htail].
  change (String c p ++ "Calculation") with (String c (p ++ "Calculation")).
  cbn [PyStr.replace_from].
  destruct (prefix "Calculation" (String c (p ++ "Calculation"))) eqn:P.
  - exfalso. destruct (prefix_inv _ _ P) as [post Hpost].
    injection Hpost as -> _. rewrite prefix_one in P1. discriminate.
  - f_equal. apply IH, Htail.
Qed.

(** X12. The label of a description, for any class: a class name in which
    "Calculation" does not occur is its own label, and a class name made of
    a part with no capital C followed by "Calculation" has that part as
    label. *)
Theorem description_label (name : string) :
  (str_contains "Calculation" name = false ->
     PyStr.replace (class_name (UserCalculation name)) "Calculation" "" = name) /\
  (str_contains "C" name = false ->
     PyStr.replace (class_name (UserCalculation (name ++ "Calculation")))
       "Calculation" "" = name).
Proof.
  split; intros H; cbn [class_name].
  - apply replace_absent; [discriminate | exact H].
  - now apply replace_suffix.
Qed.

Lemma description_label_witness :
  PyStr.replace (class_name (UserCalculation "Modulo")) "Calculation" "" = "Modulo"
  /\ PyStr.replace (class_name (UserCalculation "SquareRootCalculation"))
       "Calculation" "" = "SquareRoot".
Proof.
  split.
  - apply (proj1 (description_label "Modulo")). reflexivity.
  - apply (proj2 (description_label "SquareRoot")). reflexivity.
Defined.

End LabelFacts.

(** ** Signs and zeros in the primitives *)

Module FloatSigns.

Local Open Scope float_scope.

Lemma round_aux_opp (p e : Z) (s : bool) (m ex : Z) (l : location) :
  SFopp (binary_round_aux p e s m ex l) = binary_round_aux p e (negb s) m ex l.
Proof.
  unfold binary_round_aux.
  destruct (shr_fexp p e m ex l) as [mrs' e'].
  destruct (shr_fexp p e _ e' loc_Exact) as [mrs'' e''].
  destruct (shr_m mrs''); [reflexivity | | reflexivity].
  destruct (e'' <=? e - p)%Z; reflexivity.
Qed.

Lemma SFmul_opp_l (p e : Z) (x y : spec_float) :
  SFmul p e (SFopp x) y = SFopp (SFmul p e x y).
Proof.
  destruct x as [sx | sx | | sx mx ex], y as [sy | sy | | sy my ey]; cbn;
    try reflexivity; try (destruct sx, sy; reflexivity).
  rewrite round_aux_opp. now destruct sx, sy.
Qed.

Lemma SFdiv_opp_l (p e : Z) (x y : spec_float) :
  SFdiv p e (SFopp x) y = SFopp (SFdiv p e x y).
Proof.
  destruct x as [sx | sx | | sx mx ex], y as [sy | sy | | sy my ey]; cbn;
    try reflexivity; try (destruct sx, sy; reflexivity).
  destruct (SFdiv_core_binary p e (Z.pos mx) ex (Z.pos my) ey) as [[mz ez] lz].
  rewrite round_aux_opp. now destruct sx, sy.
Qed.

Lemma SFsub_self (x : spec_float) :
  SFsub prec emax x x
  = match x with
    | S754_zero _ | S754_finite _ _ _ => S754_zero false
    | _ => S754_nan
    end.
Proof.
  destruct x as [s | s | | s m e]; try (destruct s; reflexivity);
    try reflexivity.
  unfold SFsub.
  match goal with
  | |- binary_normalize _ _ (?z - ?z)%Z _ _ = _ => generalize z; intros z'
  end.
  rewrite Z.sub_diag. reflexivity.
Qed.

End FloatSigns.

Section SignFacts.

Local Open Scope float_scope.

(** X13. Changing the sign of the first operand changes the sign of the
    product and of the quotient, and nothing else: the product and the
    quotient of [- x] are the opposites of those of [x], and [division]
    raises for [- x] exactly when it raises for [x], with the same error. *)
Theorem opposite_operand (x y : float) :
  Operation.multiplication (- x) y = - Operation.multiplication x y /\
  Operation.division (- x) y = Result_map opp (Operation.division x y).
Proof.
  split.
  - unfold Operation.multiplication. apply Prim2SF_inj.
    rewrite opp_spec, !mul_spec, opp_spec. apply FloatSigns.SFmul_opp_l.
  - destruct (PyFloat.eq_zero y) eqn:E.
    + now rewrite !division_zero by exact E.
    + rewrite !division_nonzero by exact E. cbn. f_equal.
      apply Prim2SF_inj.
      rewrite opp_spec, !div_spec, opp_spec. apply FloatSigns.SFdiv_opp_l.
Qed.

(** X14. A number minus itself is plus zero, exactly, for every float that
    is finite; for the infinities and nan it is nan. *)
Theorem subtraction_of_itself (x : float) :
  (is_nan x = false -> is_infinity x = false -> Operation.subtraction x x = 0) /\
  (is_nan x = true \/ is_infinity x = true -> Operation.subtraction x x = nan).
Proof.
  pose proof (FloatArith.tests_by_shape x) as T.
  pose proof (sub_spec x x) as S. unfold SF64sub in S.
  rewrite FloatSigns.SFsub_self in S.
  unfold Operation.subtraction.
  destruct (Prim2SF x) as [s | s | | s m e]; destruct T as (_ & N & Inf);
    rewrite N, Inf; split; intros;
    repeat match goal with
      | H : _ \/ _ |- _ => destruct H
      end;
    try discriminate;
    apply Prim2SF_inj; rewrite S; reflexivity.
Qed.

Lemma subtraction_of_itself_witness :
  Operation.subtraction 0x1p-1074 0x1p-1074 = 0
  /\ Operation.subtraction neg_infinity neg_infinity = nan.
Proof.
  split.
  - apply (proj1 (subtraction_of_itself 0x1p-1074)); reflexivity.
  - apply (proj2 (subtraction_of_itself neg_infinity)). right. reflexivity.
Defined.

(** X15. Zero as second operand: subtracting zero gives the first operand
    back, whatever it is; adding zero gives it back too, minus zero apart,
    which becomes plus zero; and a finite number times zero equals zero
    (with the sign of the first operand), while an infinity or nan times
    zero is nan. *)
Theorem zero_second_operand (x : float) :
  Operation.subtraction x 0 = x /\
  (x <> neg_zero -> Operation.addition x 0 = x) /\
  Operation.addition neg_zero 0 = 0 /\
  (is_nan x = false -> is_infinity x = false ->
     PyFloat.eq_zero (Operation.multiplication x 0) = true) /\
  (is_nan x = true \/ is_infinity x = true -> Operation.multiplication x 0 = nan).
Proof.
  pose proof (FloatArith.tests_by_shape x) as T.
  unfold Operation.subtraction, Operation.addition, Operation.multiplication.
  split; [| split; [| split; [| split]]].
  - apply Prim2SF_inj. rewrite sub_spec, FloatFacts.Prim2SF_zero.
    destruct (Prim2SF x) as [[] | [] | | s m e]; reflexivity.
  - intros Hx. apply Prim2SF_inj. rewrite add_spec, FloatFacts.Prim2SF_zero.
    destruct (Prim2SF x) as [[] | [] | | s m e] eqn:E; try reflexivity.
    exfalso. apply Hx. apply Prim2SF_inj. rewrite E. reflexivity.
  - reflexivity.
  - intros N Inf.
    pose proof (mul_spec x 0) as M. rewrite FloatFacts.Prim2SF_zero in M.
    destruct (Prim2SF x) as [s | s | | s m e]; destruct T as (_ & N' & Inf');
      try congruence; cbn in M; exact (FloatArith.zero_of_shape _ _ M).
  - intros H.
    pose proof (mul_spec x 0) as M. rewrite FloatFacts.Prim2SF_zero in M.
    destruct (Prim2SF x) as [s | s | | s m e]; destruct T as (_ & N' & Inf');
      try (destruct H; congruence); cbn in M; exact (FloatArith.nan_of_shape _ M).
Qed.

Lemma zero_second_operand_witness :
  Operation.addition (-3) 0 = (-3)
  /\ PyFloat.eq_zero (Operation.multiplication (-3) 0) = true
  /\ Operation.multiplication infinity 0 = nan.
Proof.
  split; [| split].
  - apply (proj1 (proj2 (zero_second_operand (-3)))).
    intros H. apply (f_equal PyFloat.eq_zero) in H. discriminate H.
  - apply (proj1 (proj2 (proj2 (proj2 (zero_second_operand (-3)))))); reflexivity.
  - apply (proj2 (proj2 (proj2 (proj2 (zero_second_operand infinity))))).
    right. reflexivity.
Defined.

End SignFacts.
